(** * generate_image.py: a shallow embedding of the slide-deck image generator

    The script [src/slide-deck/ai-dev-practice/generate_image.py] imports
    Pillow (or reports its absence and exits), allocates a 1600x900 RGB
    canvas, draws a filled blue rectangle centered by floor division and
    saves the canvas as "test.png".

    The model follows the Python program statement by statement in a small
    exception-and-state monad over a world made of the file system, the two
    standard streams and a heap of Pillow image objects ([ImageDraw.Draw]
    keeps a reference to the image it draws on, so the drawing mutates the
    object that [image.save] later encodes).  The Pillow primitives used by
    the script ([Image.new], [ImageColor.getrgb] for colour names,
    [ImageDraw.rectangle] with Pillow's documented inclusive bounding box,
    [Image.getpixel]) are embedded as the library defines them.  A PNG file
    is represented by the image it encodes; Pillow's PNG writer is a
    function of the pixel data and writes no timestamp by default. *)

From Stdlib Require Import ZArith String List Lia Bool.
Import ListNotations.
Open Scope Z_scope.

(** ** Python exceptions raised or handled by the script *)

Inductive exn : Type :=
| ImportError
| ModuleNotFoundError            (** subclass of [ImportError] *)
| OSError                        (** e.g. permission denied, disk full *)
| ValueError
| IndexError
| MemoryError
| SystemExit (code : Z).

(** [isinstance(e, ImportError)]: the class matched by [except ImportError]. *)
Definition is_import_error (e : exn) : bool :=
  match e with
  | ImportError | ModuleNotFoundError => true
  | _ => false
  end.

Definition exn_name (e : exn) : string :=
  match e with
  | ImportError => "ImportError"
  | ModuleNotFoundError => "ModuleNotFoundError"
  | OSError => "OSError"
  | ValueError => "ValueError"
  | IndexError => "IndexError"
  | MemoryError => "MemoryError"
  | SystemExit _ => "SystemExit"
  end.

(** ** Pillow images *)

Definition color : Type := (Z * Z * Z)%type.

Record image : Type := mkImage {
  mode : string;
  im_width : Z;
  im_height : Z;
  px : Z -> Z -> color
}.

(** [ImageColor.getrgb] on the colour names the script uses. *)
Definition getrgb (name : string) : option color :=
  if String.eqb name "white" then Some (255, 255, 255)
  else if String.eqb name "blue" then Some (0, 0, 255)
  else if String.eqb name "black" then Some (0, 0, 0)
  else if String.eqb name "red" then Some (255, 0, 0)
  else None.

Definition white : color := (255, 255, 255).
Definition blue : color := (0, 0, 255).

(** [Image.new(mode, (w, h), c)] once the colour is resolved. *)
Definition image_new (m : string) (w h : Z) (c : color) : image :=
  mkImage m w h (fun _ _ => c).

(** [image.getpixel((x, y))]: [IndexError] outside the canvas. *)
Definition getpixel (img : image) (x y : Z) : option color :=
  if (0 <=? x) && (x <? im_width img) && (0 <=? y) && (y <? im_height img)
  then Some (px img x y) else None.

(** Pixels covered by [draw.rectangle([x0, y0, x1, y1])]: Pillow's bounding
    box is inclusive of both endpoints; pixels outside the canvas do not
    exist and are clipped by [getpixel]. *)
Definition in_rect (x0 y0 x1 y1 x y : Z) : bool :=
  (x0 <=? x) && (x <=? x1) && (y0 <=? y) && (y <=? y1).

Definition paint_rect (img : image) (x0 y0 x1 y1 : Z) (c : color) : image :=
  {| mode := mode img; im_width := im_width img; im_height := im_height img;
     px := fun x y => if in_rect x0 y0 x1 y1 x y then c else px img x y |}.

(** [ImageDraw.rectangle] with [fill]: Pillow rejects reversed corners with
    [ValueError] and an unknown colour name with [ValueError]. *)
Definition rectangle (img : image) (xy : list Z) (fill : string)
  : image + exn :=
  match xy, getrgb fill with
  | [x0; y0; x1; y1], Some c =>
      if (x1 <? x0) || (y1 <? y0) then inr ValueError
      else inl (paint_rect img x0 y0 x1 y1 c)
  | _, _ => inr ValueError
  end.

(** ** The world the script runs in *)

Inductive file_content : Type :=
| PngFile (img : image)
| OtherFile (data : string).

Record world : Type := mkWorld {
  fs : string -> option file_content;
  stdout : list string;
  stderr : list string;
  heap : list image
}.

Definition fs_write (f : string -> option file_content) (name : string)
  (c : file_content) : string -> option file_content :=
  fun n => if String.eqb n name then Some c else f n.

(** Facts about the environment that the script does not control: whether
    [from PIL import Image, ImageDraw] succeeds, and whether writing the
    output file fails. *)
Record env : Type := mkEnv {
  pil_import : option exn;
  save_error : option exn
}.

(** ** An exception-and-state monad for Python statements *)

Inductive res (A : Type) : Type :=
| Ok (a : A)
| Raise (e : exn).
Arguments Ok {A} a.
Arguments Raise {A} e.

Definition M (A : Type) : Type := world -> res A * world.

Definition ret {A} (a : A) : M A := fun w => (Ok a, w).

Definition bind {A B} (m : M A) (k : A -> M B) : M B :=
  fun w => match m w with
           | (Ok a, w') => k a w'
           | (Raise e, w') => (Raise e, w')
           end.

Definition raise {A} (e : exn) : M A := fun w => (Raise e, w).

Notation "x <- m ;; k" := (bind m (fun x => k))
  (at level 61, m at next level, right associativity).
Notation "m ;; k" := (bind m (fun _ => k))
  (at level 61, right associativity).

(** [try: body except ImportError: handler] *)
Definition try_except_import (body handler : M unit) : M unit :=
  fun w => match body w with
           | (Raise e, w') =>
               if is_import_error e then handler w' else (Raise e, w')
           | r => r
           end.

(** [print(s)] and [print(s, file=sys.stderr)]: one line each. *)
Definition print_stdout (s : string) : M unit :=
  fun w => (Ok tt, {| fs := fs w; stdout := stdout w ++ [s ++ "
"]%string;
                      stderr := stderr w; heap := heap w |}).

Definition print_stderr (s : string) : M unit :=
  fun w => (Ok tt, {| fs := fs w; stdout := stdout w;
                      stderr := stderr w ++ [s ++ "
"]%string; heap := heap w |}).

Definition sys_exit (code : Z) : M unit := raise (SystemExit code).

Definition import_sys : M unit := ret tt.

Definition import_pil (e : env) : M unit :=
  match pil_import e with
  | None => ret tt
  | Some x => raise x
  end.

(** Pillow objects are references into the heap. *)
Definition addr : Type := nat.

Fixpoint heap_set (h : list image) (a : addr) (img : image) : list image :=
  match h, a with
  | [], _ => []
  | _ :: t, O => img :: t
  | i :: t, S a' => i :: heap_set t a' img
  end.

Definition Image_new (m : string) (size : Z * Z) (c : string) : M addr :=
  fun w => match getrgb c with
           | None => (Raise ValueError, w)
           | Some rgb =>
               (Ok (length (heap w)),
                {| fs := fs w; stdout := stdout w; stderr := stderr w;
                   heap := heap w ++ [image_new m (fst size) (snd size) rgb] |})
           end.

(** [ImageDraw.Draw(image)]: the draw object refers to the same image. *)
Definition ImageDraw_Draw (a : addr) : M addr := ret a.

Definition draw_rectangle (d : addr) (xy : list Z) (fill : string) : M unit :=
  fun w => match nth_error (heap w) d with
           | None => (Raise IndexError, w)
           | Some img =>
               match rectangle img xy fill with
               | inr e => (Raise e, w)
               | inl img' =>
                   (Ok tt, {| fs := fs w; stdout := stdout w; stderr := stderr w;
                              heap := heap_set (heap w) d img' |})
               end
           end.

(** [image.save(name)]: the ".png" suffix selects the PNG encoder; a failing
    write raises the environment's error and leaves the file system as is. *)
Definition image_save (e : env) (a : addr) (name : string) : M unit :=
  fun w => match save_error e with
           | Some x => (Raise x, w)
           | None =>
               match nth_error (heap w) a with
               | None => (Raise IndexError, w)
               | Some img =>
                   (Ok tt, {| fs := fs_write (fs w) name (PngFile img);
                              stdout := stdout w; stderr := stderr w;
                              heap := heap w |})
               end
           end.

(** ** The script *)

Definition width : Z := 1600.
Definition height : Z := 900.
Definition square_size : Z := 600.
(** Python's [//] on integers is floor division, [Z.div]. *)
Definition x_start : Z := (width - square_size) / 2.
Definition y_start : Z := (height - square_size) / 2.
Definition x_end : Z := x_start + square_size.
Definition y_end : Z := y_start + square_size.

Definition pillow_msg : string :=
  "Pillow library not found. Please install it using 'pip install Pillow'".
Definition success_msg : string :=
  "Image 'test.png' generated successfully.".

Definition generate_image (e : env) : M unit :=
  import_sys ;;
  try_except_import (import_pil e)
    (print_stderr pillow_msg ;; sys_exit 1) ;;
  image <- Image_new "RGB" (width, height) "white" ;;
  draw <- ImageDraw_Draw image ;;
  draw_rectangle draw [x_start; y_start; x_end; y_end] "blue" ;;
  image_save e image "test.png" ;;
  print_stdout success_msg.

(** ** Running the module as a process

    A [SystemExit] ends the process with its code; any other uncaught
    exception makes the interpreter print a traceback to standard error and
    exit with status 1. *)

Record outcome : Type := mkOutcome {
  final : world;
  status : Z;
  uncaught : option exn
}.

Definition traceback (e : exn) : string :=
  ("Traceback (most recent call last): " ++ exn_name e ++ "
")%string.

Definition run (e : env) (w0 : world) : outcome :=
  match generate_image e w0 with
  | (Ok _, w) => mkOutcome w 0 None
  | (Raise (SystemExit n), w) => mkOutcome w n None
  | (Raise x, w) =>
      mkOutcome {| fs := fs w; stdout := stdout w;
                   stderr := stderr w ++ [traceback x]; heap := heap w |}
                1 (Some x)
  end.

(** The canvas the script builds and saves on success. *)
Definition blank_canvas : image := image_new "RGB" width height white.
Definition drawn_canvas : image :=
  paint_rect blank_canvas x_start y_start x_end y_end blue.

Definition env_ok : env := mkEnv None None.
Definition empty_world : world :=
  mkWorld (fun _ => None) [] [] [].

(** ** Execution lemmas for the three paths of the script *)

Lemma nth_error_app_last (h : list image) (a : image) :
  nth_error (h ++ [a]) (length h) = Some a.
Proof. induction h as [|x t IH]; simpl; auto. Qed.

Lemma heap_set_app_last (h : list image) (a b : image) :
  heap_set (h ++ [a]) (length h) b = h ++ [b].
Proof. induction h as [|x t IH]; simpl; [reflexivity | now rewrite IH]. Qed.

Lemma getrgb_white : getrgb "white" = Some white.
Proof. reflexivity. Qed.

Lemma rectangle_script (img : image) :
  rectangle img [x_start; y_start; x_end; y_end] "blue" =
  inl (paint_rect img x_start y_start x_end y_end blue).
Proof. reflexivity. Qed.

Definition success_world (w0 : world) : world :=
  {| fs := fs_write (fs w0) "test.png" (PngFile drawn_canvas);
     stdout := stdout w0 ++ [success_msg ++ "
"]%string;
     stderr := stderr w0;
     heap := heap w0 ++ [drawn_canvas] |}.

Lemma run_success (e : env) (w0 : world) :
  pil_import e = None -> save_error e = None ->
  run e w0 = mkOutcome (success_world w0) 0 None.
Proof.
  intros Hp Hs.
  unfold run, generate_image, bind, try_except_import, import_sys, import_pil, ret.
  rewrite Hp.
  unfold Image_new, ImageDraw_Draw, draw_rectangle, ret; rewrite getrgb_white.
  simpl heap. rewrite nth_error_app_last, rectangle_script.
  unfold image_save; rewrite Hs; simpl heap.
  rewrite heap_set_app_last, nth_error_app_last.
  reflexivity.
Qed.

Lemma run_missing_pillow (e : env) (w0 : world) (x : exn) :
  pil_import e = Some x -> is_import_error x = true ->
  run e w0 =
  mkOutcome {| fs := fs w0; stdout := stdout w0;
               stderr := stderr w0 ++ [pillow_msg ++ "
"]%string;
               heap := heap w0 |} 1 None.
Proof.
  intros Hp Hi.
  unfold run, generate_image, bind, try_except_import, import_sys, import_pil, ret.
  rewrite Hp; unfold raise; rewrite Hi; reflexivity.
Qed.

Lemma run_other_import_error (e : env) (w0 : world) (x : exn) :
  pil_import e = Some x -> is_import_error x = false ->
  (forall n, x <> SystemExit n) ->
  run e w0 =
  mkOutcome {| fs := fs w0; stdout := stdout w0;
               stderr := stderr w0 ++ [traceback x]; heap := heap w0 |}
            1 (Some x).
Proof.
  intros Hp Hi Hn.
  unfold run, generate_image, bind, try_except_import, import_sys, import_pil, ret.
  rewrite Hp; unfold raise; rewrite Hi.
  destruct x; try reflexivity; exfalso; eapply Hn; reflexivity.
Qed.

Lemma run_save_failure (e : env) (w0 : world) (x : exn) :
  pil_import e = None -> save_error e = Some x ->
  (forall n, x <> SystemExit n) ->
  run e w0 =
  mkOutcome {| fs := fs w0; stdout := stdout w0;
               stderr := stderr w0 ++ [traceback x];
               heap := heap w0 ++ [drawn_canvas] |}
            1 (Some x).
Proof.
  intros Hp Hs Hn.
  unfold run, generate_image, bind, try_except_import, import_sys, import_pil, ret.
  rewrite Hp.
  unfold Image_new, ImageDraw_Draw, draw_rectangle, ret; rewrite getrgb_white.
  simpl heap. rewrite nth_error_app_last, rectangle_script.
  unfold image_save; rewrite Hs; simpl heap.
  rewrite heap_set_app_last.
  destruct x; try reflexivity; exfalso; eapply Hn; reflexivity.
Qed.

Lemma success_file (e : env) (w0 : world) :
  pil_import e = None -> save_error e = None ->
  fs (final (run e w0)) "test.png" = Some (PngFile drawn_canvas).
Proof. intros Hp Hs; rewrite run_success by assumption; reflexivity. Qed.

Lemma drawn_canvas_dims :
  mode drawn_canvas = "RGB"%string /\ im_width drawn_canvas = 1600 /\
  im_height drawn_canvas = 900.
Proof. repeat split. Qed.

(** Every pixel of the saved canvas: blue inside the inclusive box
    (500,150)-(1100,750), white elsewhere on the 1600x900 canvas. *)
Lemma drawn_pixel (x y : Z) :
  0 <= x < 1600 -> 0 <= y < 900 ->
  getpixel drawn_canvas x y =
  Some (if in_rect 500 150 1100 750 x y then blue else white).
Proof.
  intros Hx Hy. unfold getpixel.
  change (im_width drawn_canvas) with 1600.
  change (im_height drawn_canvas) with 900.
  assert (H1 : (0 <=? x) = true) by (apply Z.leb_le; lia).
  assert (H2 : (x <? 1600) = true) by (apply Z.ltb_lt; lia).
  assert (H3 : (0 <=? y) = true) by (apply Z.leb_le; lia).
  assert (H4 : (y <? 900) = true) by (apply Z.ltb_lt; lia).
  rewrite H1, H2, H3, H4.
  reflexivity.
Qed.

Definition color_eqb (c d : color) : bool :=
  match c, d with
  | (r1, g1, b1), (r2, g2, b2) => (r1 =? r2) && (g1 =? g2) && (b1 =? b2)
  end.

Definition is_blue (o : option color) : bool :=
  match o with Some c => color_eqb c blue | None => false end.

Lemma is_blue_drawn (x y : Z) :
  0 <= x < 1600 -> 0 <= y < 900 ->
  is_blue (getpixel drawn_canvas x y) = in_rect 500 150 1100 750 x y.
Proof.
  intros Hx Hy; rewrite drawn_pixel by assumption.
  destruct (in_rect 500 150 1100 750 x y); reflexivity.
Qed.

(** [range(lo, lo + n)] as a list of integers. *)
Definition zrange (lo : Z) (n : nat) : list Z :=
  map (fun k => lo + Z.of_nat k) (seq 0 n).

Lemma in_zrange (lo : Z) (n : nat) (x : Z) :
  In x (zrange lo n) -> lo <= x < lo + Z.of_nat n.
Proof.
  unfold zrange; rewrite in_map_iff; intros [k [<- Hk]].
  apply in_seq in Hk; lia.
Qed.

(** The blue pixels of row [y] and of column [x]. *)
Definition blue_columns (img : image) (y : Z) : list Z :=
  filter (fun x => is_blue (getpixel img x y)) (zrange 0 1600).
Definition blue_rows (img : image) (x : Z) : list Z :=
  filter (fun y => is_blue (getpixel img x y)) (zrange 0 900).

Example drawn_row_450 : length (blue_columns drawn_canvas 450) = 601%nat.
Proof. vm_compute. reflexivity. Qed.

Example drawn_center : getpixel drawn_canvas 800 450 = Some blue.
Proof. reflexivity. Qed.

Example drawn_outside : getpixel drawn_canvas 1101 450 = Some white.
Proof. reflexivity. Qed.

(** ** Claims *)

(** The spec's reading of the output picture: a 1600x900 canvas, white
    except for a blue square of side 600 (pixels [x0 .. x0+599] by
    [y0 .. y0+599]) centered exactly in both directions. *)
Definition centered_square_600 (img : image) : Prop :=
  im_width img = 1600 /\ im_height img = 900 /\
  exists x0 y0, 2 * x0 + 600 = 1600 /\ 2 * y0 + 600 = 900 /\
    forall x y, 0 <= x < 1600 -> 0 <= y < 900 ->
      getpixel img x y =
      Some (if in_rect x0 y0 (x0 + 599) (y0 + 599) x y then blue else white).

(** C1 (as stated, refuted): on a run with Pillow available, the saved
    "test.png" is not a centered 600x600 blue square on white: the pixel
    (1100, 450) just right of such a square is blue. *)
Lemma C1_counterexample :
  ~ (status (run env_ok empty_world) = 0 /\
     exists img, fs (final (run env_ok empty_world)) "test.png" = Some (PngFile img)
                 /\ centered_square_600 img).
Proof.
  rewrite run_success by reflexivity; simpl.
  intros [_ [img [Himg [_ [_ [x0 [y0 [Hx [Hy Hpx]]]]]]]]].
  unfold fs_write in Himg; simpl in Himg. injection Himg as <-.
  assert (x0 = 500) by lia; assert (y0 = 150) by lia; subst x0 y0.
  specialize (Hpx 1100 450 ltac:(lia) ltac:(lia)).
  rewrite drawn_pixel in Hpx by lia. vm_compute in Hpx. discriminate.
Qed.

(** C1 (amended): when Pillow is available and the file can be written, the
    run exits with status 0 and "test.png" holds a 1600x900 RGB canvas that
    is white except for a 601x601 blue square covering columns 500..1100 and
    rows 150..750 inclusive. *)
Theorem C1_success_image (e : env) (w0 : world) :
  pil_import e = None -> save_error e = None ->
  status (run e w0) = 0 /\
  exists img, fs (final (run e w0)) "test.png" = Some (PngFile img) /\
    mode img = "RGB"%string /\ im_width img = 1600 /\ im_height img = 900 /\
    forall x y, 0 <= x < 1600 -> 0 <= y < 900 ->
      getpixel img x y =
      Some (if in_rect 500 150 1100 750 x y then blue else white).
Proof.
  intros Hp Hs. split.
  - rewrite run_success by assumption; reflexivity.
  - exists drawn_canvas. split; [apply success_file; assumption|].
    split; [reflexivity|]. split; [reflexivity|]. split; [reflexivity|].
    apply drawn_pixel.
Qed.

Lemma C1_success_image_witness :
  pil_import env_ok = None /\ save_error env_ok = None /\
  status (run env_ok empty_world) = 0.
Proof.
  split; [reflexivity|]. split; [reflexivity|].
  exact (proj1 (C1_success_image env_ok empty_world eq_refl eq_refl)).
Defined.

(** C2: the bounding box is computed by floor division of the constants,
    giving (500,150)-(1100,750), and the four corners of the drawn square
    are blue in the saved canvas. *)
Theorem C2_corners :
  x_start = (1600 - 600) / 2 /\ y_start = (900 - 600) / 2 /\
  x_end = x_start + 600 /\ y_end = y_start + 600 /\
  x_start = 500 /\ y_start = 150 /\ x_end = 1100 /\ y_end = 750 /\
  getpixel drawn_canvas 500 150 = Some blue /\
  getpixel drawn_canvas 1100 150 = Some blue /\
  getpixel drawn_canvas 500 750 = Some blue /\
  getpixel drawn_canvas 1100 750 = Some blue.
Proof. repeat split; reflexivity. Qed.

(** C3: when [from PIL import ...] raises an [ImportError] (or its subclass
    [ModuleNotFoundError]), the process writes exactly the Pillow diagnostic
    line to standard error, exits with status 1, and leaves the file system,
    standard output and the object heap untouched. *)
Theorem C3_missing_pillow (e : env) (w0 : world) (x : exn) :
  pil_import e = Some x -> is_import_error x = true ->
  status (run e w0) = 1 /\ uncaught (run e w0) = None /\
  stderr (final (run e w0)) =
    stderr w0 ++ ["Pillow library not found. Please install it using 'pip install Pillow'
"%string] /\
  stdout (final (run e w0)) = stdout w0 /\
  fs (final (run e w0)) = fs w0 /\
  heap (final (run e w0)) = heap w0.
Proof.
  intros Hp Hi. rewrite (run_missing_pillow e w0 x Hp Hi).
  repeat split; reflexivity.
Qed.

Lemma C3_missing_pillow_witness :
  pil_import (mkEnv (Some ModuleNotFoundError) None) = Some ModuleNotFoundError /\
  status (run (mkEnv (Some ModuleNotFoundError) None) empty_world) = 1.
Proof.
  split; [reflexivity|].
  exact (proj1 (C3_missing_pillow (mkEnv (Some ModuleNotFoundError) None)
                  empty_world ModuleNotFoundError eq_refl eq_refl)).
Defined.

Lemma in_zrange_iff (lo : Z) (n : nat) (x : Z) :
  In x (zrange lo n) <-> lo <= x < lo + Z.of_nat n.
Proof.
  split; [apply in_zrange|]. intros H.
  unfold zrange; apply in_map_iff.
  exists (Z.to_nat (x - lo)); split; [lia|].
  apply in_seq; lia.
Qed.

Lemma blue_columns_drawn (y : Z) :
  0 <= y < 900 ->
  blue_columns drawn_canvas y =
  if (150 <=? y) && (y <=? 750) then zrange 500 601 else [].
Proof.
  intros Hy; unfold blue_columns.
  rewrite (filter_ext_in _
             (fun x => ((150 <=? y) && (y <=? 750)) && ((500 <=? x) && (x <=? 1100)))).
  - destruct ((150 <=? y) && (y <=? 750)); vm_compute; reflexivity.
  - intros x Hin; apply in_zrange in Hin.
    rewrite is_blue_drawn by lia; unfold in_rect.
    destruct (500 <=? x), (x <=? 1100), (150 <=? y), (y <=? 750); reflexivity.
Qed.

Lemma blue_rows_drawn (x : Z) :
  0 <= x < 1600 ->
  blue_rows drawn_canvas x =
  if (500 <=? x) && (x <=? 1100) then zrange 150 601 else [].
Proof.
  intros Hx; unfold blue_rows.
  rewrite (filter_ext_in _
             (fun y => ((500 <=? x) && (x <=? 1100)) && ((150 <=? y) && (y <=? 750)))).
  - destruct ((500 <=? x) && (x <=? 1100)); vm_compute; reflexivity.
  - intros y Hin; apply in_zrange in Hin.
    rewrite is_blue_drawn by lia; unfold in_rect.
    destruct (500 <=? x), (x <=? 1100), (150 <=? y), (y <=? 750); reflexivity.
Qed.

(** C4: the rectangle is filled with inclusive endpoints: both
    (x_start, y_start) and (x_end, y_end) are blue, every row 150..750 has
    exactly the blue columns 500..1100 (601 of them) and every column
    500..1100 exactly the blue rows 150..750 (601 of them); no other pixel
    is blue. *)
Theorem C4_inclusive_601 (e : env) (w0 : world) :
  pil_import e = None -> save_error e = None ->
  exists img, fs (final (run e w0)) "test.png" = Some (PngFile img) /\
    getpixel img x_start y_start = Some blue /\
    getpixel img x_end y_end = Some blue /\
    (forall y, 0 <= y < 900 ->
       blue_columns img y = if (150 <=? y) && (y <=? 750) then zrange 500 601 else []) /\
    (forall x, 0 <= x < 1600 ->
       blue_rows img x = if (500 <=? x) && (x <=? 1100) then zrange 150 601 else []) /\
    length (zrange 500 601) = 601%nat /\
    (forall x, In x (zrange 500 601) <-> 500 <= x <= 1100) /\
    (forall y, In y (zrange 150 601) <-> 150 <= y <= 750).
Proof.
  intros Hp Hs. exists drawn_canvas.
  split; [apply success_file; assumption|].
  split; [reflexivity|]. split; [reflexivity|].
  split; [exact blue_columns_drawn|]. split; [exact blue_rows_drawn|].
  split; [reflexivity|].
  split; intros z; rewrite in_zrange_iff; simpl Z.of_nat; lia.
Qed.

Lemma C4_inclusive_601_witness :
  pil_import env_ok = None /\ save_error env_ok = None /\
  exists img, fs (final (run env_ok empty_world)) "test.png" = Some (PngFile img) /\
    getpixel img x_end y_end = Some blue.
Proof.
  split; [reflexivity|]. split; [reflexivity|].
  destruct (C4_inclusive_601 env_ok empty_world eq_refl eq_refl)
    as [img [Hf [_ [He _]]]].
  exists img; split; assumption.
Defined.

(** C5: in every successful run the saved canvas has pixel (0,0) white and
    pixel (width/2, height/2) = (800,450) blue. *)
Theorem C5_probe_pixels (e : env) (w0 : world) :
  pil_import e = None -> save_error e = None ->
  exists img, fs (final (run e w0)) "test.png" = Some (PngFile img) /\
    getpixel img 0 0 = Some white /\
    width / 2 = 800 /\ height / 2 = 450 /\
    getpixel img (width / 2) (height / 2) = Some blue.
Proof.
  intros Hp Hs. exists drawn_canvas.
  split; [apply success_file; assumption|].
  repeat split; reflexivity.
Qed.

Lemma C5_probe_pixels_witness :
  pil_import env_ok = None /\ save_error env_ok = None /\
  exists img, fs (final (run env_ok empty_world)) "test.png" = Some (PngFile img) /\
    getpixel img 0 0 = Some white.
Proof.
  split; [reflexivity|]. split; [reflexivity|].
  destruct (C5_probe_pixels env_ok empty_world eq_refl eq_refl)
    as [img [Hf [Hw _]]].
  exists img; split; assumption.
Defined.

(** C6: the saved file depends on nothing but the script: runs from any two
    worlds write the same "test.png", and a second run in the world left by
    the first overwrites it with the same content and changes no other
    file. *)
Theorem C6_deterministic (e : env) (w0 w1 : world) :
  pil_import e = None -> save_error e = None ->
  fs (final (run e w0)) "test.png" = fs (final (run e w1)) "test.png" /\
  fs (final (run e (final (run e w0)))) "test.png" =
    fs (final (run e w0)) "test.png" /\
  (forall n, fs (final (run e (final (run e w0)))) n = fs (final (run e w0)) n).
Proof.
  intros Hp Hs.
  rewrite !run_success by assumption; simpl.
  split; [reflexivity|]. split; [reflexivity|].
  intros n; unfold fs_write; destruct (String.eqb n "test.png"); reflexivity.
Qed.

Lemma C6_deterministic_witness :
  pil_import env_ok = None /\ save_error env_ok = None /\
  fs (final (run env_ok empty_world)) "test.png" =
  fs (final (run env_ok (mkWorld (fun _ => Some (OtherFile "old")) [] [] []))) "test.png".
Proof.
  split; [reflexivity|]. split; [reflexivity|].
  exact (proj1 (C6_deterministic env_ok empty_world
                  (mkWorld (fun _ => Some (OtherFile "old")) [] [] [])
                  eq_refl eq_refl)).
Defined.

(** C7: on success the only effects are writing "test.png" (every other
    file is as before), appending exactly the line
    "Image 'test.png' generated successfully." to standard output, and
    nothing on standard error; the process exits with status 0. *)
Theorem C7_success_effects (e : env) (w0 : world) :
  pil_import e = None -> save_error e = None ->
  status (run e w0) = 0 /\ uncaught (run e w0) = None /\
  (forall n, fs (final (run e w0)) n =
             if String.eqb n "test.png" then Some (PngFile drawn_canvas)
             else fs w0 n) /\
  stdout (final (run e w0)) =
    stdout w0 ++ ["Image 'test.png' generated successfully.
"%string] /\
  stderr (final (run e w0)) = stderr w0.
Proof.
  intros Hp Hs. rewrite run_success by assumption.
  repeat split; reflexivity.
Qed.

Lemma C7_success_effects_witness :
  pil_import env_ok = None /\ save_error env_ok = None /\
  stdout (final (run env_ok empty_world)) =
    ["Image 'test.png' generated successfully.
"%string].
Proof.
  split; [reflexivity|]. split; [reflexivity|].
  destruct (C7_success_effects env_ok empty_world eq_refl eq_refl)
    as [_ [_ [_ [Ho _]]]].
  exact Ho.
Defined.

(** C8: [except ImportError] is the only handler.  An exception raised by
    [image.save] (an [OSError] for a full disk or a denied write, say) is
    not caught: the process ends with that exception uncaught, a traceback
    on standard error, status 1, and no confirmation line.  An exception of
    another class raised while importing Pillow is not caught either. *)
Theorem C8_unhandled_faults :
  (forall e w0 x,
     pil_import e = None -> save_error e = Some x ->
     (forall n, x <> SystemExit n) ->
     uncaught (run e w0) = Some x /\ status (run e w0) = 1 /\
     stdout (final (run e w0)) = stdout w0 /\
     stderr (final (run e w0)) = stderr w0 ++ [traceback x]) /\
  (forall e w0 x,
     pil_import e = Some x -> is_import_error x = false ->
     (forall n, x <> SystemExit n) ->
     uncaught (run e w0) = Some x /\ status (run e w0) = 1 /\
     stdout (final (run e w0)) = stdout w0 /\
     stderr (final (run e w0)) = stderr w0 ++ [traceback x]).
Proof.
  split; intros e w0 x H1 H2 H3.
  - rewrite (run_save_failure e w0 x H1 H2 H3); repeat split.
  - rewrite (run_other_import_error e w0 x H1 H2 H3); repeat split.
Qed.

Lemma C8_unhandled_faults_witness :
  uncaught (run (mkEnv None (Some OSError)) empty_world) = Some OSError /\
  uncaught (run (mkEnv (Some MemoryError) None) empty_world) = Some MemoryError.
Proof.
  destruct C8_unhandled_faults as [Hsave Himp]. split.
  - exact (proj1 (Hsave (mkEnv None (Some OSError)) empty_world OSError
                    eq_refl eq_refl ltac:(discriminate))).
  - exact (proj1 (Himp (mkEnv (Some MemoryError) None) empty_world MemoryError
                    eq_refl eq_refl ltac:(discriminate))).
Defined.

(** C9: pixelwise, the saved canvas is blue exactly on
    500 <= x <= 1100, 150 <= y <= 750 and white everywhere else. *)
Theorem C9_two_colours (e : env) (w0 : world) :
  pil_import e = None -> save_error e = None ->
  exists img, fs (final (run e w0)) "test.png" = Some (PngFile img) /\
    forall x y, 0 <= x < 1600 -> 0 <= y < 900 ->
      (getpixel img x y = Some blue <->
         500 <= x <= 1100 /\ 150 <= y <= 750) /\
      (getpixel img x y = Some white <->
         ~ (500 <= x <= 1100 /\ 150 <= y <= 750)).
Proof.
  intros Hp Hs. exists drawn_canvas.
  split; [apply success_file; assumption|].
  intros x y Hx Hy; rewrite drawn_pixel by assumption; unfold in_rect.
  destruct (500 <=? x) eqn:E1, (x <=? 1100) eqn:E2,
           (150 <=? y) eqn:E3, (y <=? 750) eqn:E4; simpl;
  rewrite ?Z.leb_le, ?Z.leb_gt in *;
  split; split; intros; first [discriminate | reflexivity | lia].
Qed.

Lemma C9_two_colours_witness :
  pil_import env_ok = None /\ save_error env_ok = None /\
  exists img, fs (final (run env_ok empty_world)) "test.png" = Some (PngFile img) /\
    getpixel img 1100 750 = Some blue /\ getpixel img 1101 750 = Some white.
Proof.
  split; [reflexivity|]. split; [reflexivity|].
  destruct (C9_two_colours env_ok empty_world eq_refl eq_refl) as [img [Hf Hpx]].
  exists img; split; [exact Hf|]. split.
  - apply (Hpx 1100 750 ltac:(lia) ltac:(lia)); lia.
  - apply (Hpx 1101 750 ltac:(lia) ltac:(lia)); lia.
Defined.

(** C10: the inclusive rectangle lies inside the canvas, so nothing is
    clipped: every pixel (x, y) with x_start <= x <= x_end and
    y_start <= y <= y_end exists on the canvas and is blue. *)
Theorem C10_no_clipping :
  0 <= x_start /\ x_end <= width - 1 /\ 0 <= y_start /\ y_end <= height - 1 /\
  (forall x y, x_start <= x <= x_end -> y_start <= y <= y_end ->
     getpixel drawn_canvas x y = Some blue).
Proof.
  change x_start with 500; change x_end with 1100;
  change y_start with 150; change y_end with 750;
  change width with 1600; change height with 900.
  split; [lia|]. split; [lia|]. split; [lia|]. split; [lia|].
  intros x y Hx Hy; rewrite drawn_pixel by lia; unfold in_rect.
  replace (500 <=? x) with true by (symmetry; apply Z.leb_le; lia).
  replace (x <=? 1100) with true by (symmetry; apply Z.leb_le; lia).
  replace (150 <=? y) with true by (symmetry; apply Z.leb_le; lia).
  replace (y <=? 750) with true by (symmetry; apply Z.leb_le; lia).
  reflexivity.
Qed.

Lemma C10_no_clipping_witness :
  x_start <= 1100 <= x_end /\ y_start <= 750 <= y_end /\
  getpixel drawn_canvas 1100 750 = Some blue.
Proof.
  split; [vm_compute; split; discriminate|]. split; [vm_compute; split; discriminate|].
  destruct C10_no_clipping as [_ [_ [_ [_ H]]]].
  apply H; vm_compute; split; discriminate.
Defined.

(** ** Properties over every environment *)

Definition after_missing_pillow (w0 : world) : world :=
  {| fs := fs w0; stdout := stdout w0;
     stderr := stderr w0 ++ [pillow_msg ++ "
"]%string; heap := heap w0 |}.

Definition after_save_failure (w0 : world) : world :=
  {| fs := fs w0; stdout := stdout w0; stderr := stderr w0;
     heap := heap w0 ++ [drawn_canvas] |}.

(** The four ways [generate_image] can end, before the process wraps up. *)
Lemma generate_image_paths (e : env) (w0 : world) :
  (pil_import e = None -> save_error e = None ->
     generate_image e w0 =
     (Ok tt, {| fs := fs_write (fs w0) "test.png" (PngFile drawn_canvas);
                stdout := stdout w0 ++ [success_msg ++ "
"]%string;
                stderr := stderr w0; heap := heap w0 ++ [drawn_canvas] |})) /\
  (forall x, pil_import e = None -> save_error e = Some x ->
     generate_image e w0 = (Raise x, after_save_failure w0)) /\
  (forall x, pil_import e = Some x -> is_import_error x = true ->
     generate_image e w0 = (Raise (SystemExit 1), after_missing_pillow w0)) /\
  (forall x, pil_import e = Some x -> is_import_error x = false ->
     generate_image e w0 = (Raise x, w0)).
Proof.
  unfold generate_image, bind, try_except_import, import_sys, import_pil, ret.
  split; [|split; [|split]]; intros *.
  - intros Hp Hs; rewrite Hp.
    unfold Image_new, ImageDraw_Draw, draw_rectangle, ret; rewrite getrgb_white.
    simpl heap. rewrite nth_error_app_last, rectangle_script.
    unfold image_save; rewrite Hs; simpl heap.
    rewrite heap_set_app_last, nth_error_app_last. reflexivity.
  - intros Hp Hs; rewrite Hp.
    unfold Image_new, ImageDraw_Draw, draw_rectangle, ret; rewrite getrgb_white.
    simpl heap. rewrite nth_error_app_last, rectangle_script.
    unfold image_save; rewrite Hs; simpl heap.
    rewrite heap_set_app_last. reflexivity.
  - intros Hp Hi; rewrite Hp; unfold raise; rewrite Hi; reflexivity.
  - intros Hp Hi; rewrite Hp; unfold raise; rewrite Hi; reflexivity.
Qed.

(** Split a goal about [run e w0] into the script's paths, the raised
    exception's class included. *)
Ltac run_paths e w0 :=
  let Hp := fresh "Hp" in let Hs := fresh "Hs" in let Hi := fresh "Hi" in
  destruct (generate_image_paths e w0) as [P1 [P2 [P3 P4]]];
  unfold run;
  destruct (pil_import e) as [x|] eqn:Hp;
  [ destruct (is_import_error x) eqn:Hi;
    [ rewrite (P3 x eq_refl Hi) | rewrite (P4 x eq_refl Hi); destruct x ]
  | destruct (save_error e) as [x|] eqn:Hs;
    [ rewrite (P2 x eq_refl eq_refl); destruct x | rewrite (P1 eq_refl eq_refl) ] ];
  simpl.

(** X1: whatever the environment (Pillow present or not, the write failing
    or not), the script never creates, changes or removes a file other than
    "test.png". *)
Theorem X1_only_test_png_touched (e : env) (w0 : world) (n : string) :
  String.eqb n "test.png" = false ->
  fs (final (run e w0)) n = fs w0 n.
Proof.
  intros Hn. run_paths e w0; try reflexivity.
  unfold fs_write; rewrite Hn; reflexivity.
Qed.

Lemma X1_only_test_png_touched_witness :
  String.eqb "slides.md" "test.png" = false /\
  fs (final (run env_ok (mkWorld (fun _ => Some (OtherFile "deck")) [] [] [])))
     "slides.md" = Some (OtherFile "deck").
Proof.
  split; [reflexivity|].
  exact (X1_only_test_png_touched env_ok
           (mkWorld (fun _ => Some (OtherFile "deck")) [] [] [])
           "slides.md" eq_refl).
Defined.

(** X2: standard output gains nothing or exactly the one confirmation line;
    the line is printed only after "test.png" has been written with the
    drawn canvas, and only on a run that exits with status 0. *)
Theorem X2_stdout_after_save (e : env) (w0 : world) :
  stdout (final (run e w0)) = stdout w0 \/
  (stdout (final (run e w0)) =
     stdout w0 ++ ["Image 'test.png' generated successfully.
"%string] /\
   fs (final (run e w0)) "test.png" = Some (PngFile drawn_canvas) /\
   status (run e w0) = 0).
Proof.
  run_paths e w0; (left; reflexivity) || (right; repeat split).
Qed.




Definition is_white (o : option color) : bool :=
  match o with Some c => color_eqb c white | None => false end.

Definition white_columns (img : image) (y : Z) : list Z :=
  filter (fun x => is_white (getpixel img x y)) (zrange 0 1600).
Definition white_rows (img : image) (x : Z) : list Z :=
  filter (fun y => is_white (getpixel img x y)) (zrange 0 900).

Lemma is_white_drawn (x y : Z) :
  0 <= x < 1600 -> 0 <= y < 900 ->
  is_white (getpixel drawn_canvas x y) = negb (in_rect 500 150 1100 750 x y).
Proof.
  intros Hx Hy; rewrite drawn_pixel by assumption.
  destruct (in_rect 500 150 1100 750 x y); reflexivity.
Qed.

(** X5: the square is off centre by one pixel towards the bottom right:
    every row through it has 500 white pixels on its left (columns 0..499)
    and 499 on its right (1101..1599), and every column through it has 150
    white pixels above (rows 0..149) and 149 below (751..899). *)
Theorem X5_margins (e : env) (w0 : world) :
  pil_import e = None -> save_error e = None ->
  exists img, fs (final (run e w0)) "test.png" = Some (PngFile img) /\
    (forall y, 150 <= y <= 750 ->
       white_columns img y = zrange 0 500 ++ zrange 1101 499) /\
    (forall x, 500 <= x <= 1100 ->
       white_rows img x = zrange 0 150 ++ zrange 751 149).
Proof.
  intros Hp Hs. exists drawn_canvas.
  split; [apply success_file; assumption|]. split.
  - intros y Hy; unfold white_columns.
    rewrite (filter_ext_in _ (fun x => negb ((500 <=? x) && (x <=? 1100)))).
    + vm_compute; reflexivity.
    + intros x Hin; apply in_zrange in Hin.
      rewrite is_white_drawn by lia; unfold in_rect.
      replace (150 <=? y) with true by (symmetry; apply Z.leb_le; lia).
      replace (y <=? 750) with true by (symmetry; apply Z.leb_le; lia).
      rewrite !andb_true_r; reflexivity.
  - intros x Hx; unfold white_rows.
    rewrite (filter_ext_in _ (fun y => negb ((150 <=? y) && (y <=? 750)))).
    + vm_compute; reflexivity.
    + intros y Hin; apply in_zrange in Hin.
      rewrite is_white_drawn by lia; unfold in_rect.
      replace (500 <=? x) with true by (symmetry; apply Z.leb_le; lia).
      replace (x <=? 1100) with true by (symmetry; apply Z.leb_le; lia).
      reflexivity.
Qed.

Lemma X5_margins_witness :
  pil_import env_ok = None /\ save_error env_ok = None /\
  exists img, fs (final (run env_ok empty_world)) "test.png" = Some (PngFile img) /\
    length (white_columns img 450) = 999%nat.
Proof.
  split; [reflexivity|]. split; [reflexivity|].
  destruct (X5_margins env_ok empty_world eq_refl eq_refl) as [img [Hf [Hc _]]].
  exists img; split; [exact Hf|].
  rewrite (Hc 450 ltac:(lia)); reflexivity.
Defined.
